(** * Credential verification of the Smart Bus Stop login form

    A shallow embedding of [src/login.py]: the routine [verify_credentials]
    and its caller [on_login].  The MySQL connector and the passlib context
    are external collaborators; a [World] fixes, for one call, what each of
    their operations answers (a value, or a raised [Exception]).  The
    routine is written in a small state-and-exception monad whose state
    keeps the cursor's unread rows and the log of the collaborator calls
    made so far. *)

From Stdlib Require Import String Ascii List ZArith Bool Lia DecimalString.
Import ListNotations.
Open Scope string_scope.

(** ** Python values *)

(** A Python [str] is held as the bytes of its UTF-8 encoding, so two
    texts are equal exactly when their byte strings are, and
    concatenation is concatenation. *)

(** An instance of Python's [Exception]; only its [str()] is ever used
    (by the f-string of the handler).  [BaseException]s that are not
    [Exception]s (keyboard interrupt, interpreter exit) are not raised by
    the collaborators and have no representation here. *)
Record Exception : Type := mkException { exc_str : string }.

(** What a call into a collaborator does: it returns or it raises. *)
Inductive Outcome (A : Type) : Type :=
| Returned (a : A)
| Raised (e : Exception).
Arguments Returned {A} a.
Arguments Raised {A} e.

(** A row of [SELECT id, email, hashed_password FROM users], as the
    dictionary cursor delivers it: one value per selected column. *)
Record Row : Type := mkRow {
  id : Z;
  email : string;
  hashed_password : string
}.

(** The second component of the returned pair: the user id on success, a
    message otherwise. *)
Inductive Info : Type :=
| InfoId (uid : Z)
| InfoStr (msg : string).

(** [str(n)] for an integer. *)
Definition str_of_int (n : Z) : string := NilZero.string_of_int (Z.to_int n).

(** [str(info)], also what [{info}] formats to. *)
Definition py_str (i : Info) : string :=
  match i with
  | InfoId n => str_of_int n
  | InfoStr s => s
  end.

(** ** Collaborators *)

(** The calls [verify_credentials] makes, with their arguments. *)
Inductive Call : Type :=
| CConnect (config : list (string * string))
| CCursor (dictionary : bool)
| CExecute (operation : string) (params : list string)
| CFetchone
| CCurClose
| CConnClose
| CVerify (secret hash : string).

(** A log entry: the call and whether it returned ([true]) or raised. *)
Record Event : Type := mkEvent { ev_call : Call; ev_ok : bool }.

(** The answers of the database server and of the password context during
    one call of [verify_credentials]. *)
Record World : Type := mkWorld {
  (** [mysql.connector.connect] applied to the unpacked [config] *)
  db_connect : list (string * string) -> Outcome unit;
  (** [conn.cursor(dictionary=...)] *)
  db_cursor : bool -> Outcome unit;
  (** [cur.execute(operation, params)]: the result set of the statement *)
  db_execute : string -> list string -> Outcome (list Row);
  (** [cur.fetchone()] raises, or else delivers the next unread row *)
  db_fetchone : Outcome unit;
  (** [cur.close()] *)
  db_cur_close : Outcome unit;
  (** [conn.close()] *)
  db_conn_close : Outcome unit;
  (** [pwd_context.verify(secret, hash)] *)
  pwd_verify : string -> string -> Outcome bool
}.

(** ** The monad: state passing with exceptions *)

Record State : Type := mkState {
  (** rows of the executed statement that the cursor has not delivered *)
  unread : list Row;
  (** the collaborator calls made so far, oldest first *)
  log : list Event
}.

Definition fresh : State := mkState [] [].

Module Eff.

Definition M (A : Type) : Type := State -> Outcome A * State.

Definition ret {A} (a : A) : M A := fun s => (Returned a, s).

Definition bind {A B} (m : M A) (k : A -> M B) : M B :=
  fun s =>
    match m s with
    | (Returned a, s') => k a s'
    | (Raised e, s') => (Raised e, s')
    end.

(** [try: body / except Exception as e: handler e] *)
Definition try_except {A} (body : M A) (handler : Exception -> M A) : M A :=
  fun s =>
    match body s with
    | (Returned a, s') => (Returned a, s')
    | (Raised e, s') => handler e s'
    end.

Definition record (c : Call) (ok : bool) (s : State) : State :=
  mkState (unread s) (log s ++ [mkEvent c ok]).

(** A collaborator call whose answer [o] the world has fixed; [upd]
    is its effect on the state when it returns. *)
Definition call {A} (c : Call) (o : Outcome A) (upd : A -> State -> State)
  : M A :=
  fun s =>
    match o with
    | Returned a => (Returned a, upd a (record c true s))
    | Raised e => (Raised e, record c false s)
    end.

End Eff.
Import Eff.

Notation "x <- m ;; k" := (bind m (fun x => k))
  (at level 61, m at next level, right associativity).
Notation "m ;;; k" := (bind m (fun _ => k))
  (at level 61, right associativity).

(** ** The program *)

Definition DB_CONFIG : list (string * string) :=
  [("host", "localhost"); ("user", "root");
   ("password", "your_db_password"); ("database", "smartbus")].

Definition SELECT_USER : string :=
  "SELECT id, email, hashed_password FROM users WHERE email=%s".

Section Program.

Variable w : World.

(** [str.strip()] of the builtins, which is no code of the program: any
    function from texts to texts. *)
Variable strip : string -> string.

Definition keep {A} (_ : A) (s : State) : State := s.

Definition connect (config : list (string * string)) : M unit :=
  call (CConnect config) (db_connect w config) keep.

Definition cursor (dictionary : bool) : M unit :=
  call (CCursor dictionary) (db_cursor w dictionary) keep.

Definition execute (operation : string) (params : list string) : M unit :=
  x <- call (CExecute operation params) (db_execute w operation params)
         (fun rows s => mkState rows (log s)) ;;
  ret tt.

Definition fetchone : M (option Row) :=
  fun s =>
    match db_fetchone w with
    | Raised e => (Raised e, record CFetchone false s)
    | Returned _ =>
        match unread s with
        | [] => (Returned None, record CFetchone true s)
        | row :: rest =>
            (Returned (Some row),
             mkState rest (log s ++ [mkEvent CFetchone true]))
        end
    end.

Definition cur_close : M unit := call CCurClose (db_cur_close w) keep.

Definition conn_close : M unit := call CConnClose (db_conn_close w) keep.

Definition verify (secret hash : string) : M bool :=
  call (CVerify secret hash) (pwd_verify w secret hash) keep.

Definition verify_credentials (email password : string) : M (bool * Info) :=
  try_except
    (connect DB_CONFIG ;;;
     cursor true ;;;
     execute SELECT_USER [email] ;;;
     row <- fetchone ;;
     cur_close ;;;
     conn_close ;;;
     match row with
     | None => ret (false, InfoStr "User not found")
     | Some row =>
         matched <- verify password (hashed_password row) ;;
         if matched
         then ret (true, InfoId (id row))
         else ret (false, InfoStr "Incorrect password")
     end)
    (fun e => ret (false, InfoStr ("DB error: " ++ exc_str e))).

(** What [on_login] shows. *)
Inductive Dialog : Type :=
| ShowInfo (title message : string)
| ShowError (title message : string).

(** [entry_email] and [entry_password] are the texts of the two entry
    widgets when the button is pressed. *)
Definition on_login (entry_email entry_password : string) : M Dialog :=
  let email := strip entry_email in
  let password := strip entry_password in
  r <- verify_credentials email password ;;
  let '(ok, info) := r in
  if ok
  then ret (ShowInfo "Success" ("Logged in! user id: " ++ py_str info))
  else ret (ShowError "Error" (py_str info)).

End Program.

(** ** Resources held, read off the log *)

(** A connection is held from a [connect] that returned until a
    [conn.close()] that returned; likewise the cursor. *)
Record Held : Type := mkHeld { conn_held : bool; cur_held : bool }.

Definition nothing_held : Held := mkHeld false false.

Definition step_held (h : Held) (e : Event) : Held :=
  if ev_ok e then
    match ev_call e with
    | CConnect _ => mkHeld true (cur_held h)
    | CCursor _ => mkHeld (conn_held h) true
    | CCurClose => mkHeld (conn_held h) false
    | CConnClose => mkHeld false (cur_held h)
    | _ => h
    end
  else h.

Definition held_from (h : Held) (l : list Event) : Held :=
  fold_left step_held l h.

Definition held_after (l : list Event) : Held := held_from nothing_held l.

Definition is_verify (e : Event) : bool :=
  match ev_call e with
  | CVerify _ _ => true
  | _ => false
  end.

(** Checks a log from holdings [h]: at each call of the password
    context neither the connection nor the cursor is held. *)
Fixpoint hashing_unheld (h : Held) (l : list Event) : bool :=
  match l with
  | [] => true
  | e :: l' =>
      (if is_verify e then negb (conn_held h || cur_held h) else true)
      && hashing_unheld (step_held h e) l'
  end.

(** ** The vocabulary of the specification *)

Inductive Reason : Type :=
| NotFound
| BadSecret
| StoreError (details : string).

Inductive VerificationResult : Type :=
| Success (userId : Z)
| Failure (reason : Reason).

Fixpoint strip_prefix (p s : string) : option string :=
  match p, s with
  | EmptyString, _ => Some s
  | String a p', String b s' =>
      if Ascii.eqb a b then strip_prefix p' s' else None
  | String _ _, EmptyString => None
  end.

(** Reading of a returned pair as a [VerificationResult]; [None] for a
    pair that is none of the four the specification names. *)
Definition classify (r : bool * Info) : option VerificationResult :=
  match r with
  | (true, InfoId uid) => Some (Success uid)
  | (false, InfoStr msg) =>
      if msg =? "User not found" then Some (Failure NotFound)
      else if msg =? "Incorrect password" then Some (Failure BadSecret)
      else match strip_prefix "DB error: " msg with
           | Some details => Some (Failure (StoreError details))
           | None => None
           end
  | _ => None
  end.

(** The Credential Store read of the specification ([findByIdentifier]):
    the statements of [verify_credentials] from [connect] to
    [conn.close()], delivering the fetched row. *)
Definition store_lookup (w : World) (email : string) : M (option Row) :=
  connect w DB_CONFIG ;;;
  cursor w true ;;;
  execute w SELECT_USER [email] ;;;
  row <- fetchone w ;;
  cur_close w ;;;
  conn_close w ;;;
  ret row.

(** What follows the read in [verify_credentials]. *)
Definition decide (w : World) (password : string) (row : option Row)
  : M (bool * Info) :=
  match row with
  | None => ret (false, InfoStr "User not found")
  | Some row =>
      matched <- verify w password (hashed_password row) ;;
      if matched
      then ret (true, InfoId (id row))
      else ret (false, InfoStr "Incorrect password")
  end.

(** The returned value and the log of one call from a fresh state. *)
Definition result (w : World) (email password : string)
  : Outcome (bool * Info) :=
  fst (verify_credentials w email password fresh).

Definition events (w : World) (email password : string) : list Event :=
  log (snd (verify_credentials w email password fresh)).

(** The returned value in the vocabulary of the specification. *)
Definition verdict (w : World) (email password : string) (s : State)
  : option VerificationResult :=
  match fst (verify_credentials w email password s) with
  | Returned r => classify r
  | Raised _ => None
  end.

(** Two worlds that answer alike on the calls made with [email] and
    [password] themselves; on any other string they may differ. *)
Definition same_answers (w w' : World) (email password : string) : Prop :=
  db_connect w' DB_CONFIG = db_connect w DB_CONFIG /\
  db_cursor w' true = db_cursor w true /\
  db_execute w' SELECT_USER [email] = db_execute w SELECT_USER [email] /\
  db_fetchone w' = db_fetchone w /\
  db_cur_close w' = db_cur_close w /\
  db_conn_close w' = db_conn_close w /\
  forall hash, pwd_verify w' password hash = pwd_verify w password hash.

(** The calls of [w] for [(email, password)] and those of [w'] for
    [(email', password')] get the same answers, one by one. *)
Definition answered_alike (w : World) (email password : string)
           (w' : World) (email' password' : string) : Prop :=
  db_connect w' DB_CONFIG = db_connect w DB_CONFIG /\
  db_cursor w' true = db_cursor w true /\
  db_execute w' SELECT_USER [email'] = db_execute w SELECT_USER [email] /\
  db_fetchone w' = db_fetchone w /\
  db_cur_close w' = db_cur_close w /\
  db_conn_close w' = db_conn_close w /\
  forall hash, pwd_verify w' password' hash = pwd_verify w password hash.

(** ** The calls of one run, in the order of the source *)

Definition store_calls (email : string) : list Call :=
  [CConnect DB_CONFIG; CCursor true; CExecute SELECT_USER [email];
   CFetchone; CCurClose; CConnClose].

(** ** Worlds used in the examples *)

Definition alice : Row :=
  mkRow 42 "alice@example.com" "$2b$12$blob-of-s3cr3t".

Definition users_of (params : list string) : list Row :=
  match params with
  | [e] => if e =? "alice@example.com" then [alice] else []
  | _ => []
  end.

(** A reachable store that holds [alice], whose secret is ["s3cr3t"]. *)
Definition up : World :=
  mkWorld (fun _ => Returned tt) (fun _ => Returned tt)
    (fun _ params => Returned (users_of params))
    (Returned tt) (Returned tt) (Returned tt)
    (fun secret hash =>
       Returned ((secret =? "s3cr3t") && (hash =? hashed_password alice))).

(** As [up], for a server whose comparison of [email] ignores the case
    of letters and a context that cuts the secret after six characters:
    whatever is done to the strings is done by the collaborators. *)
Definition lenient : World :=
  mkWorld (db_connect up) (db_cursor up)
    (fun _ params =>
       match params with
       | [e] => if (e =? "alice@example.com") || (e =? "ALICE@EXAMPLE.COM")
                then Returned [alice] else Returned []
       | _ => Returned []
       end)
    (db_fetchone up) (db_cur_close up) (db_conn_close up)
    (fun secret hash =>
       Returned ((substring 0 6 secret =? "s3cr3t")
                 && (hash =? hashed_password alice))).

(** The server refuses the connection. *)
Definition down : World :=
  mkWorld
    (fun _ => Raised (mkException "2003: Can't connect to MySQL server"))
    (db_cursor up) (db_execute up) (db_fetchone up)
    (db_cur_close up) (db_conn_close up) (pwd_verify up).

(** The connection is made and the statement fails. *)
Definition no_table : World :=
  mkWorld (db_connect up) (db_cursor up)
    (fun _ _ =>
       Raised (mkException "1146 (42S02): Table 'smartbus.users' doesn't exist"))
    (db_fetchone up) (db_cur_close up) (db_conn_close up) (pwd_verify up).

(** The stored blob of [alice] is not a hash the context can parse. *)
Definition bad_blob : World :=
  mkWorld (db_connect up) (db_cursor up) (db_execute up) (db_fetchone up)
    (db_cur_close up) (db_conn_close up)
    (fun _ _ => Raised (mkException "hash could not be identified")).

(** A store that delivers [alice] whatever the e-mail, and a context
    that accepts every secret. *)
Definition open_house : World :=
  mkWorld (db_connect up) (db_cursor up) (fun _ _ => Returned [alice])
    (db_fetchone up) (db_cur_close up) (db_conn_close up)
    (fun _ _ => Returned true).

(** [str.strip()] on a text with no whitespace at either end gives the
    text itself; the examples of [on_login] enter such texts. *)
Definition unpadded (text : string) : string := text.

(** ** Running the program *)

Ltac unfold_run :=
  cbv beta iota zeta
      delta [verify_credentials store_lookup decide connect cursor execute
             fetchone cur_close conn_close verify
             Eff.try_except Eff.bind Eff.ret Eff.call Eff.record keep
             unread log fst snd] in *.

(** Case analysis on the next answer of the store that the goal
    inspects. *)
Ltac next_store_answer :=
  match goal with
  | |- context [match db_connect ?w ?c with _ => _ end] =>
      destruct (db_connect w c) as [[]|?]
  | |- context [match db_cursor ?w ?d with _ => _ end] =>
      destruct (db_cursor w d) as [[]|?]
  | |- context [match db_execute ?w ?o ?p with _ => _ end] =>
      destruct (db_execute w o p) as [[|? ?]|?]
  | |- context [match db_fetchone ?w with _ => _ end] =>
      destruct (db_fetchone w) as [[]|?]
  | |- context [match db_cur_close ?w with _ => _ end] =>
      destruct (db_cur_close w) as [[]|?]
  | |- context [match db_conn_close ?w with _ => _ end] =>
      destruct (db_conn_close w) as [[]|?]
  end; unfold_run.

(** The same for the answer of the password context. *)
Ltac next_hasher_answer :=
  match goal with
  | |- context [match pwd_verify ?w ?p ?h with _ => _ end] =>
      destruct (pwd_verify w p h) as [[|]|?]
  end; unfold_run.

Ltac next_answer := first [next_store_answer | next_hasher_answer].

Ltac run := unfold_run; repeat next_answer.

Lemma verify_credentials_split (w : World) (email password : string) (s : State) :
  verify_credentials w email password s =
  try_except (row <- store_lookup w email ;; decide w password row)
    (fun e => ret (false, InfoStr ("DB error: " ++ exc_str e))) s.
Proof. run; reflexivity. Qed.

Lemma after_lookup_raised (w : World) (email password : string)
      (s s' : State) (e : Exception) :
  store_lookup w email s = (Raised e, s') ->
  verify_credentials w email password s =
  (Returned (false, InfoStr ("DB error: " ++ exc_str e)), s').
Proof.
  intros H. rewrite verify_credentials_split.
  unfold try_except, bind. rewrite H. reflexivity.
Qed.

Lemma after_lookup_none (w : World) (email password : string) (s s' : State) :
  store_lookup w email s = (Returned None, s') ->
  verify_credentials w email password s =
  (Returned (false, InfoStr "User not found"), s').
Proof.
  intros H. rewrite verify_credentials_split.
  unfold try_except, bind. rewrite H. reflexivity.
Qed.

Lemma after_lookup_row (w : World) (email password : string)
      (s s' : State) (row : Row) :
  store_lookup w email s = (Returned (Some row), s') ->
  verify_credentials w email password s =
  match pwd_verify w password (hashed_password row) with
  | Returned true =>
      (Returned (true, InfoId (id row)),
       Eff.record (CVerify password (hashed_password row)) true s')
  | Returned false =>
      (Returned (false, InfoStr "Incorrect password"),
       Eff.record (CVerify password (hashed_password row)) true s')
  | Raised e =>
      (Returned (false, InfoStr ("DB error: " ++ exc_str e)),
       Eff.record (CVerify password (hashed_password row)) false s')
  end.
Proof.
  intros H. rewrite verify_credentials_split.
  unfold try_except, bind. rewrite H.
  unfold decide, verify, call, bind, ret, keep.
  destruct (pwd_verify w password (hashed_password row)) as [[|]|e];
    reflexivity.
Qed.

(** The state in which a run ends, given what it returned at the read. *)
Lemma fst_run {A} (m : M A) (s : State) (o : Outcome A) :
  fst (m s) = o -> exists s', m s = (o, s').
Proof. destruct (m s) as [o' s']; cbn; intros <-; eauto. Qed.

Lemma classify_db_error (details : string) :
  classify (false, InfoStr ("DB error: " ++ details))
  = Some (Failure (StoreError details)).
Proof. reflexivity. Qed.

Lemma db_error_not_user_not_found (details : string) :
  "DB error: " ++ details <> "User not found".
Proof. cbn. discriminate. Qed.

Lemma db_error_not_incorrect_password (details : string) :
  "DB error: " ++ details <> "Incorrect password".
Proof. cbn. discriminate. Qed.

(** The read does not depend on the state it starts from. *)
Lemma store_lookup_outcome (w : World) (email : string) (s1 s2 : State) :
  fst (store_lookup w email s1) = fst (store_lookup w email s2).
Proof. run; reflexivity. Qed.

Lemma lookup_unreachable (w : World) (email : string) (s : State)
      (e : Exception) :
  db_connect w DB_CONFIG = Raised e ->
  fst (store_lookup w email s) = Raised e.
Proof. intros H. unfold_run. rewrite H. reflexivity. Qed.

Lemma lookup_query_error (w : World) (email : string) (s : State)
      (e : Exception) :
  db_connect w DB_CONFIG = Returned tt ->
  db_cursor w true = Returned tt ->
  db_execute w SELECT_USER [email] = Raised e ->
  fst (store_lookup w email s) = Raised e.
Proof. intros H1 H2 H3. unfold_run. rewrite H1, H2, H3. reflexivity. Qed.

(** The read returns exactly when none of its six calls raises; what it
    delivers is then the first row of the statement's result set. *)
Lemma store_lookup_returns (w : World) (email : string) (s : State)
      (found : option Row) :
  fst (store_lookup w email s) = Returned found <->
  db_connect w DB_CONFIG = Returned tt /\
  db_cursor w true = Returned tt /\
  (exists rows,
      db_execute w SELECT_USER [email] = Returned rows /\
      found = hd_error rows) /\
  db_fetchone w = Returned tt /\
  db_cur_close w = Returned tt /\
  db_conn_close w = Returned tt.
Proof.
  unfold_run. split.
  - repeat next_store_answer; intros H; try discriminate H;
      injection H as <-; repeat split; eexists; split; reflexivity.
  - intros (C & U & (rows & X & ->) & F & K1 & K2).
    rewrite C, U, X, F, K1, K2. destruct rows; reflexivity.
Qed.

(** ** Outcomes of [verify_credentials] *)

(** C1. A pair whose first component is [True] is returned exactly when
    the store read delivers a row and the password context answers [True]
    for the supplied secret and that row's stored hash; the second
    component is then that row's id.  No other run returns such a pair. *)
Theorem verify_success_iff (w : World) (email password : string)
        (s : State) (info : Info) :
  fst (verify_credentials w email password s) = Returned (true, info) <->
  exists row,
    fst (store_lookup w email s) = Returned (Some row) /\
    pwd_verify w password (hashed_password row) = Returned true /\
    info = InfoId (id row).
Proof.
  split.
  - destruct (store_lookup w email s) as [[[row|]|e] s'] eqn:L; cbn [fst].
    + rewrite (after_lookup_row _ _ password _ _ _ L).
      destruct (pwd_verify w password (hashed_password row)) as [[|]|e] eqn:V;
        cbn [fst]; intros H; try discriminate H.
      injection H as <-. exists row. auto.
    + rewrite (after_lookup_none _ _ password _ _ L). discriminate.
    + rewrite (after_lookup_raised _ _ password _ _ _ L). discriminate.
  - intros (row & L & V & ->).
    apply fst_run in L as [s' L].
    rewrite (after_lookup_row _ _ password _ _ _ L), V. reflexivity.
Qed.

Lemma verify_success_iff_witness :
  fst (verify_credentials up "alice@example.com" "s3cr3t" fresh)
  = Returned (true, InfoId 42).
Proof.
  apply (proj2 (verify_success_iff up "alice@example.com" "s3cr3t" fresh
                  (InfoId 42))).
  exists alice. repeat split.
Defined.

(** C2. When the store read finds no row for the identifier, the pair
    [(False, "User not found")] is returned, which reads as
    [Failure NotFound]; the whole run, log included, is the same for any
    two secrets. *)
Theorem verify_not_found (w : World) (email : string) (s : State) :
  fst (store_lookup w email s) = Returned None ->
  forall password,
    fst (verify_credentials w email password s)
    = Returned (false, InfoStr "User not found") /\
    verdict w email password s = Some (Failure NotFound) /\
    forall password',
      verify_credentials w email password' s
      = verify_credentials w email password s.
Proof.
  intros L password. apply fst_run in L as [s' L].
  unfold verdict. rewrite (after_lookup_none _ _ password _ _ L).
  repeat split. intros password'.
  apply (after_lookup_none _ _ password' _ _ L).
Qed.

Lemma verify_not_found_witness :
  fst (store_lookup up "bob@example.com" fresh) = Returned None /\
  fst (verify_credentials up "bob@example.com" "s3cr3t" fresh)
  = Returned (false, InfoStr "User not found").
Proof.
  split; [reflexivity|].
  apply (verify_not_found up "bob@example.com" fresh); reflexivity.
Defined.

(** C3. When the store read delivers a row and the password context
    answers [True] for the supplied secret and the row's stored hash, the
    pair [(True, row["id"])] is returned: [Success] with exactly the id of
    the row found. *)
Theorem verify_returns_record_id (w : World) (email password : string)
        (s : State) (row : Row) :
  fst (store_lookup w email s) = Returned (Some row) ->
  pwd_verify w password (hashed_password row) = Returned true ->
  fst (verify_credentials w email password s) = Returned (true, InfoId (id row))
  /\ verdict w email password s = Some (Success (id row)).
Proof.
  intros L V. apply fst_run in L as [s' L].
  unfold verdict. rewrite (after_lookup_row _ _ password _ _ _ L), V.
  split; reflexivity.
Qed.

Lemma verify_returns_record_id_witness :
  fst (store_lookup up "alice@example.com" fresh) = Returned (Some alice) /\
  pwd_verify up "s3cr3t" (hashed_password alice) = Returned true /\
  verdict up "alice@example.com" "s3cr3t" fresh = Some (Success 42).
Proof.
  split; [reflexivity|]. split; [reflexivity|].
  apply (verify_returns_record_id up "alice@example.com" "s3cr3t" fresh
           alice);
    reflexivity.
Defined.

(** C4. When the store read delivers a row and the password context
    answers [False] for the supplied secret and the row's stored hash, the
    pair [(False, "Incorrect password")] is returned: [Failure BadSecret]. *)
Theorem verify_bad_secret (w : World) (email password : string) (s : State)
        (row : Row) :
  fst (store_lookup w email s) = Returned (Some row) ->
  pwd_verify w password (hashed_password row) = Returned false ->
  fst (verify_credentials w email password s)
  = Returned (false, InfoStr "Incorrect password")
  /\ verdict w email password s = Some (Failure BadSecret).
Proof.
  intros L V. apply fst_run in L as [s' L].
  unfold verdict. rewrite (after_lookup_row _ _ password _ _ _ L), V.
  split; reflexivity.
Qed.

Lemma verify_bad_secret_witness :
  fst (store_lookup up "alice@example.com" fresh) = Returned (Some alice) /\
  pwd_verify up "wrong" (hashed_password alice) = Returned false /\
  verdict up "alice@example.com" "wrong" fresh = Some (Failure BadSecret).
Proof.
  split; [reflexivity|]. split; [reflexivity|].
  apply (verify_bad_secret up "alice@example.com" "wrong" fresh alice);
    reflexivity.
Defined.

(** C5. When a call of the store read raises (the connection is refused,
    the statement fails, ...), every secret gets the pair
    [(False, "DB error: ...")] carrying the text of the exception:
    [Failure (StoreError details)].  That pair is never a success, and it
    differs from the [NotFound] pair and from the [BadSecret] pair. *)
Theorem verify_store_error (w : World) (email : string) (s : State)
        (e : Exception) :
  fst (store_lookup w email s) = Raised e ->
  forall password,
    fst (verify_credentials w email password s)
    = Returned (false, InfoStr ("DB error: " ++ exc_str e)) /\
    verdict w email password s = Some (Failure (StoreError (exc_str e))) /\
    (forall info,
       fst (verify_credentials w email password s) <> Returned (true, info)) /\
    fst (verify_credentials w email password s)
    <> Returned (false, InfoStr "User not found") /\
    fst (verify_credentials w email password s)
    <> Returned (false, InfoStr "Incorrect password").
Proof.
  intros L password. apply fst_run in L as [s' L].
  unfold verdict. rewrite (after_lookup_raised _ _ password _ _ _ L).
  cbn [fst]. rewrite classify_db_error.
  split; [reflexivity|]. split; [reflexivity|].
  split; [discriminate|].
  split; intros H.
  - apply (db_error_not_user_not_found (exc_str e)). congruence.
  - apply (db_error_not_incorrect_password (exc_str e)). congruence.
Qed.

Lemma verify_store_error_witness :
  fst (store_lookup down "alice@example.com" fresh)
  = Raised (mkException "2003: Can't connect to MySQL server") /\
  verdict down "alice@example.com" "s3cr3t" fresh
  = Some (Failure (StoreError "2003: Can't connect to MySQL server")).
Proof.
  split; [reflexivity|].
  apply (verify_store_error down "alice@example.com" fresh
           (mkException "2003: Can't connect to MySQL server")).
  reflexivity.
Defined.

(** C6. Every call returns: no run of [verify_credentials] ends in a
    raised exception, and the pair returned always reads as one
    [VerificationResult], a [Success] with an id or a [Failure] with one
    of the three reasons. *)
Theorem verify_total (w : World) (email password : string) (s : State) :
  exists (r : bool * Info) (v : VerificationResult),
    fst (verify_credentials w email password s) = Returned r /\
    classify r = Some v /\
    match v with
    | Success uid => r = (true, InfoId uid)
    | Failure NotFound => r = (false, InfoStr "User not found")
    | Failure BadSecret => r = (false, InfoStr "Incorrect password")
    | Failure (StoreError details) =>
        r = (false, InfoStr ("DB error: " ++ details))
    end.
Proof.
  destruct (store_lookup w email s) as [[[row|]|e] s'] eqn:L.
  - rewrite (after_lookup_row _ _ password _ _ _ L).
    destruct (pwd_verify w password (hashed_password row)) as [[|]|e].
    + exists (true, InfoId (id row)), (Success (id row)). repeat split.
    + exists (false, InfoStr "Incorrect password"), (Failure BadSecret).
      repeat split.
    + exists (false, InfoStr ("DB error: " ++ exc_str e)),
        (Failure (StoreError (exc_str e))).
      repeat split.
  - rewrite (after_lookup_none _ _ password _ _ L).
    exists (false, InfoStr "User not found"), (Failure NotFound).
    repeat split.
  - rewrite (after_lookup_raised _ _ password _ _ _ L).
    exists (false, InfoStr ("DB error: " ++ exc_str e)),
      (Failure (StoreError (exc_str e))).
    repeat split.
Qed.

(** C9. When a row is found and the password context raises on its
    stored hash instead of answering, the exception does not leave
    [verify_credentials]: the pair [(False, "DB error: ...")] with the
    text of that exception is returned, a [StoreError] failure, and not a
    [NotFound], [BadSecret] or success pair. *)
Theorem verify_malformed_hash (w : World) (email password : string)
        (s : State) (row : Row) (e : Exception) :
  fst (store_lookup w email s) = Returned (Some row) ->
  pwd_verify w password (hashed_password row) = Raised e ->
  fst (verify_credentials w email password s)
  = Returned (false, InfoStr ("DB error: " ++ exc_str e)) /\
  verdict w email password s = Some (Failure (StoreError (exc_str e))).
Proof.
  intros L V. apply fst_run in L as [s' L].
  unfold verdict. rewrite (after_lookup_row _ _ password _ _ _ L), V.
  cbn [fst]. rewrite classify_db_error. split; reflexivity.
Qed.

Lemma verify_malformed_hash_witness :
  fst (store_lookup bad_blob "alice@example.com" fresh)
  = Returned (Some alice) /\
  pwd_verify bad_blob "s3cr3t" (hashed_password alice)
  = Raised (mkException "hash could not be identified") /\
  verdict bad_blob "alice@example.com" "s3cr3t" fresh
  = Some (Failure (StoreError "hash could not be identified")).
Proof.
  split; [reflexivity|]. split; [reflexivity|].
  apply (verify_malformed_hash bad_blob "alice@example.com" "s3cr3t" fresh
           alice (mkException "hash could not be identified"));
    reflexivity.
Defined.

(** ** The store's connection and cursor *)

Lemma hashing_unheld_sound (l : list Event) :
  forall h : Held,
    hashing_unheld h l = true ->
    forall pre e post,
      l = (pre ++ e :: post)%list -> is_verify e = true ->
      held_from h pre = nothing_held.
Proof.
  induction l as [|x l IH]; intros h H pre e post E V.
  - destruct pre; discriminate E.
  - destruct pre as [|y pre]; cbn [app] in E; injection E as -> ->.
    + cbn [hashing_unheld] in H. rewrite V in H.
      destruct h as [[|] [|]]; cbn in H; try discriminate H. reflexivity.
    + cbn [hashing_unheld] in H. apply andb_prop in H as [_ H].
      exact (IH _ H pre e post eq_refl V).
Qed.

Lemma events_hashing_unheld (w : World) (email password : string) :
  hashing_unheld nothing_held (events w email password) = true.
Proof. unfold events, fresh. run; reflexivity. Qed.

(** The password context is called once a row was read, as the last
    call of the run. *)
Lemma hashing_happens (w : World) (email password : string) (row : Row) :
  fst (store_lookup w email fresh) = Returned (Some row) ->
  exists ok,
    events w email password =
    (log (snd (store_lookup w email fresh))
     ++ [mkEvent (CVerify password (hashed_password row)) ok])%list.
Proof.
  intros L. apply fst_run in L as [s' L]. unfold events.
  rewrite (after_lookup_row _ _ password _ _ _ L), L.
  destruct (pwd_verify w password (hashed_password row)) as [[|]|e];
    eexists; reflexivity.
Qed.

(** When the connection was made and a later call on the cursor raises,
    [conn.close()] is never called and the connection stays held. *)
Lemma no_release_when_read_raises (w : World) (email password : string)
      (e : Exception) :
  db_connect w DB_CONFIG = Returned tt ->
  db_conn_close w = Returned tt ->
  fst (store_lookup w email fresh) = Raised e ->
  conn_held (held_after (events w email password)) = true /\
  forall ok, ~ In (mkEvent CConnClose ok) (events w email password).
Proof.
  intros C K. unfold events, fresh. unfold_run. rewrite C, K.
  repeat next_answer; cbn; intros L; try discriminate L;
    (split; [reflexivity|]); intros ok H;
    repeat (destruct H as [H|H]; [discriminate H|]); exact H.
Qed.

(** C7. A run on which the connection is acquired and the statement then
    fails: [verify_credentials] returns the [DB error] pair while the
    connection and the cursor are still held, [conn.close()] and
    [cur.close()] not having been called. *)
Theorem connection_leaks_on_query_error :
  result no_table "alice@example.com" "s3cr3t"
  = Returned
      (false,
       InfoStr "DB error: 1146 (42S02): Table 'smartbus.users' doesn't exist")
  /\ held_after (events no_table "alice@example.com" "s3cr3t")
     = mkHeld true true
  /\ map ev_call (events no_table "alice@example.com" "s3cr3t")
     = [CConnect DB_CONFIG; CCursor true;
        CExecute SELECT_USER ["alice@example.com"]].
Proof. repeat split. Qed.

(** C10. In every run from a fresh state, whenever the password context
    is called neither the connection nor the cursor is held, both
    [close] calls having returned before; and whenever the pair returned
    reads as [Success], [NotFound] or [BadSecret], nothing is held when
    the run ends. *)
Theorem store_released_before_hashing (w : World) (email password : string) :
  (forall pre e post,
      events w email password = (pre ++ e :: post)%list ->
      is_verify e = true ->
      held_after pre = nothing_held) /\
  (forall r v,
      result w email password = Returned r ->
      classify r = Some v ->
      (forall details, v <> Failure (StoreError details)) ->
      held_after (events w email password) = nothing_held).
Proof.
  split.
  - intros pre e post E V.
    exact (hashing_unheld_sound _ _ (events_hashing_unheld w email password)
             pre e post E V).
  - intros r v. unfold result, events, fresh. run; cbn [fst snd];
      intros R C N; try reflexivity;
      injection R as <-; cbn in C;
      injection C as <-; exfalso; exact (N _ eq_refl).
Qed.

Lemma store_released_before_hashing_witness :
  result up "alice@example.com" "s3cr3t" = Returned (true, InfoId 42) /\
  held_after (events up "alice@example.com" "s3cr3t") = nothing_held.
Proof.
  split; [reflexivity|].
  apply (proj2 (store_released_before_hashing up "alice@example.com" "s3cr3t")
           (true, InfoId 42) (Success 42));
    [reflexivity | reflexivity | discriminate].
Defined.

(** ** The strings handed to the collaborators *)

Lemma verify_credentials_same_answers (w w' : World)
      (email password : string) (s : State) :
  same_answers w w' email password ->
  verify_credentials w' email password s
  = verify_credentials w email password s.
Proof.
  intros (C & U & X & F & K1 & K2 & V).
  unfold_run. rewrite C, U, X, F, K1, K2.
  repeat next_store_answer; rewrite ?V; reflexivity.
Qed.

Lemma verify_credentials_answered_alike (w w' : World)
      (email password email' password' : string) (s : State) :
  answered_alike w email password w' email' password' ->
  fst (verify_credentials w' email' password' s)
  = fst (verify_credentials w email password s).
Proof.
  intros (C & U & X & F & K1 & K2 & V).
  unfold_run. rewrite C, U, X, F, K1, K2.
  repeat next_store_answer; rewrite ?V; repeat next_hasher_answer;
    reflexivity.
Qed.

Lemma events_arguments (w : World) (email password : string) (ev : Event) :
  In ev (events w email password) ->
  match ev_call ev with
  | CExecute operation params => operation = SELECT_USER /\ params = [email]
  | CVerify secret _ => secret = password
  | _ => True
  end.
Proof.
  unfold events, fresh. run; cbn [app In]; intros H;
    repeat (destruct H as [<-|H]; [cbn; auto|]); destruct H.
Qed.

(** Once the connection and the cursor are there, the statement is
    executed with [email], whatever [email] is. *)
Lemma execute_is_called (w : World) (email password : string) :
  db_connect w DB_CONFIG = Returned tt ->
  db_cursor w true = Returned tt ->
  exists ok,
    In (mkEvent (CExecute SELECT_USER [email]) ok) (events w email password).
Proof.
  intros C U. unfold events, fresh. unfold_run. rewrite C, U.
  repeat next_answer; eexists; cbn [app In]; auto 10.
Qed.

(** Once a row is read, the password context is asked about [password],
    whatever [password] is. *)
Lemma verify_is_called (w : World) (email password : string) (row : Row) :
  fst (store_lookup w email fresh) = Returned (Some row) ->
  exists ok,
    In (mkEvent (CVerify password (hashed_password row)) ok)
       (events w email password).
Proof.
  intros L. destruct (hashing_happens w email password row L) as [ok E].
  exists ok. rewrite E. apply in_or_app. right. left. reflexivity.
Qed.

Lemma on_login_calls_verify (w : World) (strip : string -> string)
      (entry_email entry_password : string) (s : State) :
  snd (on_login w strip entry_email entry_password s)
  = snd (verify_credentials w (strip entry_email) (strip entry_password) s).
Proof.
  unfold on_login, bind.
  destruct (verify_credentials w (strip entry_email) (strip entry_password) s)
    as [[[[|] info]|e] s']; reflexivity.
Qed.

(** C8. [verify_credentials] hands its two strings on untouched and
    takes no decision on what they contain.  Every statement it executes
    is the fixed [SELECT] with the one-element parameter tuple
    [(email,)], and every call of the password context gets [password] as
    the secret.  These calls are made for every string, the empty one
    included: the statement is executed as soon as the connection and the
    cursor are there, and the password context is asked as soon as a row
    is read.  The value returned depends on the two strings through the
    answers to these calls only: two runs on different strings whose calls
    are answered alike return the same value, and what the collaborators
    would answer for any other string has no influence.  The trimming is
    done by [on_login], whose collaborator calls are those of
    [verify_credentials] on the stripped texts. *)
Theorem verify_uses_inputs_verbatim (w : World) (email password : string) :
  (forall e,
      In e (events w email password) ->
      match ev_call e with
      | CExecute operation params =>
          operation = SELECT_USER /\ params = [email]
      | CVerify secret _ => secret = password
      | _ => True
      end) /\
  (db_connect w DB_CONFIG = Returned tt ->
   db_cursor w true = Returned tt ->
   exists ok,
     In (mkEvent (CExecute SELECT_USER [email]) ok)
        (events w email password)) /\
  (forall row,
      fst (store_lookup w email fresh) = Returned (Some row) ->
      exists ok,
        In (mkEvent (CVerify password (hashed_password row)) ok)
           (events w email password)) /\
  (forall w' email' password' s,
      answered_alike w email password w' email' password' ->
      fst (verify_credentials w' email' password' s)
      = fst (verify_credentials w email password s)) /\
  (forall w' s,
      same_answers w w' email password ->
      verify_credentials w' email password s
      = verify_credentials w email password s) /\
  (forall strip entry_email entry_password s,
      snd (on_login w strip entry_email entry_password s)
      = snd (verify_credentials w (strip entry_email) (strip entry_password)
               s)).
Proof.
  split; [|split; [|split; [|split; [|split]]]].
  - intros e. apply events_arguments.
  - apply execute_is_called.
  - intros row. apply verify_is_called.
  - intros w' email' password' s. apply verify_credentials_answered_alike.
  - intros w' s. apply verify_credentials_same_answers.
  - intros strip. apply on_login_calls_verify.
Qed.

Lemma verify_uses_inputs_verbatim_witness :
  answered_alike open_house "alice@example.com" "s3cr3t" open_house "" "" /\
  fst (verify_credentials open_house "" "" fresh)
  = fst (verify_credentials open_house "alice@example.com" "s3cr3t" fresh).
Proof.
  assert (A : answered_alike open_house "alice@example.com" "s3cr3t"
                open_house "" "") by (repeat split).
  split; [exact A|].
  destruct (verify_uses_inputs_verbatim open_house "alice@example.com"
              "s3cr3t") as (_ & _ & _ & alike & _).
  exact (alike open_house "" "" fresh A).
Defined.

(** Blanks and the empty text reach the collaborators as they are. *)
Example blanks_are_kept_by_verify :
  result up " alice@example.com" "s3cr3t"
  = Returned (false, InfoStr "User not found") /\
  result up "alice@example.com" "s3cr3t "
  = Returned (false, InfoStr "Incorrect password") /\
  result open_house "" "" = Returned (true, InfoId 42) /\
  map ev_call (events open_house "" "")
  = (store_calls "" ++ [CVerify "" (hashed_password alice)])%list.
Proof. repeat split. Qed.

(** The scenario of the specification. *)
Example scenario_alice :
  verdict up "alice@example.com" "s3cr3t" fresh = Some (Success 42) /\
  verdict up "alice@example.com" "wrong" fresh = Some (Failure BadSecret) /\
  verdict up "bob@example.com" "s3cr3t" fresh = Some (Failure NotFound).
Proof. repeat split. Qed.

(** Case folding and truncation are the collaborators' doing. *)
Example scenario_lenient :
  verdict lenient "ALICE@EXAMPLE.COM" "s3cr3t and more" fresh
  = Some (Success 42) /\
  map ev_call (events lenient "ALICE@EXAMPLE.COM" "s3cr3t and more")
  = [CConnect DB_CONFIG; CCursor true;
     CExecute SELECT_USER ["ALICE@EXAMPLE.COM"]; CFetchone; CCurClose;
     CConnClose; CVerify "s3cr3t and more" (hashed_password alice)].
Proof. repeat split. Qed.

(** ** The dialog of [on_login] *)

(** The value of a run, by what the store read and the password context
    answer. *)
Lemma verify_credentials_value (w : World) (email password : string)
      (s : State) :
  fst (verify_credentials w email password s) =
  match fst (store_lookup w email s) with
  | Raised e => Returned (false, InfoStr ("DB error: " ++ exc_str e))
  | Returned None => Returned (false, InfoStr "User not found")
  | Returned (Some row) =>
      match pwd_verify w password (hashed_password row) with
      | Returned true => Returned (true, InfoId (id row))
      | Returned false => Returned (false, InfoStr "Incorrect password")
      | Raised e => Returned (false, InfoStr ("DB error: " ++ exc_str e))
      end
  end.
Proof.
  destruct (store_lookup w email s) as [[[row|]|e] s'] eqn:L; cbn [fst].
  - rewrite (after_lookup_row _ _ password _ _ _ L).
    destruct (pwd_verify w password (hashed_password row)) as [[|]|e];
      reflexivity.
  - rewrite (after_lookup_none _ _ password _ _ L). reflexivity.
  - rewrite (after_lookup_raised _ _ password _ _ _ L). reflexivity.
Qed.

Lemma on_login_value (w : World) (strip : string -> string)
      (entry_email entry_password : string) (s : State) :
  fst (on_login w strip entry_email entry_password s) =
  match fst (verify_credentials w (strip entry_email) (strip entry_password) s)
  with
  | Returned (true, info) =>
      Returned (ShowInfo "Success" ("Logged in! user id: " ++ py_str info))
  | Returned (false, info) => Returned (ShowError "Error" (py_str info))
  | Raised e => Raised e
  end.
Proof.
  unfold on_login, bind.
  destruct (verify_credentials w (strip entry_email) (strip entry_password) s)
    as [[[[|] info]|e] s']; reflexivity.
Qed.

(** X1. [on_login] shows the information dialog exactly when the store
    read for the stripped e-mail text delivers a row and the password
    context answers [True] for the stripped password text and that row's
    hash; the dialog is then titled [Success] and its message ends with
    the decimal id of the row. *)
Theorem on_login_success_iff (w : World) (strip : string -> string)
        (entry_email entry_password : string) (s : State)
        (title message : string) :
  fst (on_login w strip entry_email entry_password s)
  = Returned (ShowInfo title message) <->
  exists row,
    fst (store_lookup w (strip entry_email) s) = Returned (Some row) /\
    pwd_verify w (strip entry_password) (hashed_password row)
    = Returned true /\
    title = "Success" /\
    message = "Logged in! user id: " ++ str_of_int (id row).
Proof.
  rewrite on_login_value, verify_credentials_value. split.
  - destruct (fst (store_lookup w (strip entry_email) s)) as [[row|]|e];
      try discriminate.
    destruct (pwd_verify w (strip entry_password) (hashed_password row))
      as [[|]|e] eqn:V; try discriminate.
    intros H. injection H as <- <-. exists row. auto.
  - intros (row & -> & -> & -> & ->). reflexivity.
Qed.

Lemma on_login_success_iff_witness :
  fst (on_login up unpadded "alice@example.com" "s3cr3t" fresh)
  = Returned (ShowInfo "Success" "Logged in! user id: 42").
Proof.
  apply (proj2 (on_login_success_iff up unpadded "alice@example.com" "s3cr3t"
                  fresh "Success" "Logged in! user id: 42")).
  exists alice. repeat split.
Defined.

(** X2. [on_login] never lets an exception out: it always ends by
    showing one dialog, either [Success] with the decimal id of a user, or
    [Error] with one of the three messages of [verify_credentials]. *)
Theorem on_login_dialog_shapes (w : World) (strip : string -> string)
        (entry_email entry_password : string) (s : State) :
  exists d,
    fst (on_login w strip entry_email entry_password s) = Returned d /\
    match d with
    | ShowInfo title message =>
        title = "Success" /\
        exists uid, message = "Logged in! user id: " ++ str_of_int uid
    | ShowError title message =>
        title = "Error" /\
        (message = "User not found" \/ message = "Incorrect password" \/
         exists e, message = "DB error: " ++ exc_str e)
    end.
Proof.
  rewrite on_login_value, verify_credentials_value.
  destruct (fst (store_lookup w (strip entry_email) s)) as [[row|]|e].
  - destruct (pwd_verify w (strip entry_password) (hashed_password row))
      as [[|]|e]; eexists; (split; [reflexivity|]);
      (split; [reflexivity|]).
    + exists (id row). reflexivity.
    + right; left; reflexivity.
    + right; right. exists e. reflexivity.
  - eexists; split; [reflexivity|]. split; [reflexivity|].
    left; reflexivity.
  - eexists; split; [reflexivity|]. split; [reflexivity|].
    right; right. exists e. reflexivity.
Qed.

(** X3. When a call of the store read raises, the error dialog shows
    the text of the exception itself after the words [DB error]. *)
Theorem on_login_shows_exception_text (w : World) (strip : string -> string)
        (entry_email entry_password : string) (s : State) (e : Exception) :
  fst (store_lookup w (strip entry_email) s) = Raised e ->
  fst (on_login w strip entry_email entry_password s)
  = Returned (ShowError "Error" ("DB error: " ++ exc_str e)).
Proof.
  intros L. rewrite on_login_value, verify_credentials_value, L. reflexivity.
Qed.

Lemma on_login_shows_exception_text_witness :
  fst (store_lookup down (unpadded "alice@example.com") fresh)
  = Raised (mkException "2003: Can't connect to MySQL server") /\
  fst (on_login down unpadded "alice@example.com" "s3cr3t" fresh)
  = Returned
      (ShowError "Error" "DB error: 2003: Can't connect to MySQL server").
Proof.
  split; [reflexivity|].
  apply (on_login_shows_exception_text down unpadded "alice@example.com"
           "s3cr3t" fresh
           (mkException "2003: Can't connect to MySQL server")).
  reflexivity.
Defined.

(** X4. The error dialog tells an unknown e-mail from a wrong password:
    with no row for the first e-mail and, for the second, a row whose hash
    the password context rejects, the two messages are
    [User not found] and [Incorrect password]. *)
Theorem on_login_tells_unknown_from_wrong (w : World)
        (strip : string -> string)
        (unknown known entry_password : string) (s : State) (row : Row) :
  fst (store_lookup w (strip unknown) s) = Returned None ->
  fst (store_lookup w (strip known) s) = Returned (Some row) ->
  pwd_verify w (strip entry_password) (hashed_password row)
  = Returned false ->
  fst (on_login w strip unknown entry_password s)
  = Returned (ShowError "Error" "User not found") /\
  fst (on_login w strip known entry_password s)
  = Returned (ShowError "Error" "Incorrect password") /\
  fst (on_login w strip unknown entry_password s)
  <> fst (on_login w strip known entry_password s).
Proof.
  intros N K V.
  rewrite !on_login_value, !verify_credentials_value, N, K, V.
  repeat split. discriminate.
Qed.

Lemma on_login_tells_unknown_from_wrong_witness :
  fst (store_lookup up (unpadded "bob@example.com") fresh) = Returned None /\
  fst (store_lookup up (unpadded "alice@example.com") fresh)
  = Returned (Some alice) /\
  pwd_verify up (unpadded "guess") (hashed_password alice) = Returned false /\
  fst (on_login up unpadded "bob@example.com" "guess" fresh)
  <> fst (on_login up unpadded "alice@example.com" "guess" fresh).
Proof.
  split; [reflexivity|]. split; [reflexivity|]. split; [reflexivity|].
  apply (on_login_tells_unknown_from_wrong up unpadded "bob@example.com"
           "alice@example.com" "guess" fresh alice); reflexivity.
Defined.

(** ** The calls of a run *)

(** X7. The calls of a run follow the source from its first line: they
    are the first [n] of connect, cursor, execute, fetchone, [cur.close],
    [conn.close], with at least the connect, or all six followed by one
    call of the password context.  Every call but the last returned: the
    first one to raise ends the run.  So a run connects once, executes one
    statement, the [SELECT], and hashes at most once. *)
Theorem calls_follow_source_order (w : World) (email password : string) :
  ((exists n,
       (1 <= n <= 6)%nat /\
       map ev_call (events w email password) = firstn n (store_calls email))
   \/
   (exists hash,
       map ev_call (events w email password)
       = (store_calls email ++ [CVerify password hash])%list)) /\
  forallb ev_ok (removelast (events w email password)) = true.
Proof.
  unfold events, fresh, store_calls. run; (split; [|reflexivity]);
    first
      [ right; eexists; reflexivity
      | left; exists 1%nat; split; [lia|reflexivity]
      | left; exists 2%nat; split; [lia|reflexivity]
      | left; exists 3%nat; split; [lia|reflexivity]
      | left; exists 4%nat; split; [lia|reflexivity]
      | left; exists 5%nat; split; [lia|reflexivity]
      | left; exists 6%nat; split; [lia|reflexivity] ].
Qed.

(** X8. The password context is called exactly when the store read
    delivers a row, once, with the supplied secret and that row's hash.
    For an unknown e-mail and after a store failure no hashing is done. *)
Theorem hashing_only_for_found_row (w : World) (email password : string) :
  map ev_call (filter is_verify (events w email password)) =
  match fst (store_lookup w email fresh) with
  | Returned (Some row) => [CVerify password (hashed_password row)]
  | _ => []
  end.
Proof. unfold events, fresh. run; reflexivity. Qed.

(** X9. When [verify_credentials] returns, the connection is still held
    exactly when [connect] returned and one of the later calls of the
    store read raised. *)
Theorem connection_held_iff (w : World) (email password : string) :
  conn_held (held_after (events w email password)) = true <->
  db_connect w DB_CONFIG = Returned tt /\
  exists e, fst (store_lookup w email fresh) = Raised e.
Proof.
  unfold events, fresh. run; cbn; split;
    try discriminate;
    try (intros _; split; [reflexivity|eexists; reflexivity]);
    intros [HC [? HE]]; try discriminate HC; try discriminate HE;
    reflexivity.
Qed.

Lemma connection_held_iff_witness :
  conn_held (held_after (events no_table "alice@example.com" "s3cr3t"))
  = true.
Proof.
  apply (proj2 (connection_held_iff no_table "alice@example.com" "s3cr3t")).
  split; [reflexivity|eexists; reflexivity].
Defined.

(** X10. A run does not depend on the state it starts in: whatever rows
    an earlier statement left unread and whatever was logged before, the
    value returned is that of a run from the fresh state, and the log
    grows by exactly the calls of that run. *)
Theorem verify_credentials_frame (w : World) (email password : string)
        (s : State) :
  fst (verify_credentials w email password s) = result w email password /\
  log (snd (verify_credentials w email password s))
  = (log s ++ events w email password)%list.
Proof.
  unfold result, events, fresh. run; split; try reflexivity;
    cbn [app]; rewrite <- ?app_assoc; reflexivity.
Qed.

(** X12. When [verify_credentials] returns, the cursor is still held
    exactly when [connect] and [cursor] returned and execute, fetchone or
    [cur.close] raised. *)
Theorem cursor_held_iff (w : World) (email password : string) :
  cur_held (held_after (events w email password)) = true <->
  db_connect w DB_CONFIG = Returned tt /\
  db_cursor w true = Returned tt /\
  exists e,
    db_execute w SELECT_USER [email] = Raised e \/
    db_fetchone w = Raised e \/
    db_cur_close w = Raised e.
Proof.
  unfold events, fresh. run; cbn; split;
    try discriminate;
    try (intros _; split; [reflexivity|]; split; [reflexivity|];
         eexists; eauto);
    intros (HC & HU & ? & [HE|[HE|HE]]);
    try discriminate HC; try discriminate HU; try discriminate HE;
    reflexivity.
Qed.

Lemma cursor_held_iff_witness :
  cur_held (held_after (events no_table "alice@example.com" "s3cr3t")) = true.
Proof.
  apply (proj2 (cursor_held_iff no_table "alice@example.com" "s3cr3t")).
  split; [reflexivity|]. split; [reflexivity|].
  eexists. left. reflexivity.
Defined.

(** X13. The secret never reaches the store: the calls made on the
    connection and the cursor, and whether each returned, are the same
    for any two secrets. *)
Theorem secret_never_reaches_store (w : World)
        (email password password' : string) :
  filter (fun ev => negb (is_verify ev)) (events w email password)
  = filter (fun ev => negb (is_verify ev)) (events w email password').
Proof. unfold events, fresh. run; reflexivity. Qed.
